(** * The feed engine of promptpad ([src/core/feed/algorithm.py])

    A shallow embedding of the class [FeedAlgorithm] and the properties of
    its ranking, diversity, exploration and trend-tracking code.

    Conventions of the embedding.
    - A Python [float] is an exact rational ([Q]): the literal [0.99] is
      [99 # 100].  Rounding of binary floating point is not modelled.
    - A Python [int] is a [Z]; a [str] is a [string]; a [dict] or
      [defaultdict] keyed by strings is a [gmap string _], a [defaultdict]
      being read through its default.
    - An exception is a value of [exn]; code that can raise returns a
      [result].  Methods that touch [self], the wall clock or [random] run
      in the monad [Py] over a [World].
    - A method that [FeedAlgorithm] calls on [self] and that no file of the
      repository defines raises [AttributeError] at the call
      ([call_undefined]).  [numpy.exp], a library function, is a
      [Variable]. *)

From Stdlib Require Import QArith Qround Qpower Lqa ZArith Lia.
From stdpp Require Import base option list gmap strings fin_maps.

Local Open Scope Z_scope.
Local Open Scope Q_scope.

(** ** Python values *)

Module Py0.

(** The exceptions the modelled code can raise. *)
Inductive exn : Set :=
| AttributeError
| ZeroDivisionError
| ValueError
| IndexError.

Inductive result (A : Type) : Type :=
| Ok (a : A)
| Raise (e : exn).
Arguments Ok {A} a.
Arguments Raise {A} e.

Definition rbind {A B} (r : result A) (k : A -> result B) : result B :=
  match r with
  | Ok a => k a
  | Raise e => Raise e
  end.

(** [x < y] on floats, as a boolean. *)
Definition Qltb (x y : Q) : bool := negb (Qle_bool y x).

(** [a / b] on two ints: true division, [ZeroDivisionError] on [b = 0]. *)
Definition py_truediv (a b : Z) : result Q :=
  if (b =? 0)%Z then Raise ZeroDivisionError
  else Ok (inject_Z a / inject_Z b).

(** [x / y] on two floats. *)
Definition py_fdiv (x y : Q) : result Q :=
  if Qeq_bool y 0 then Raise ZeroDivisionError else Ok (x / y).

(** [int(x)]: truncation toward zero. *)
Definition py_int (x : Q) : Z := Z.quot (Qnum x) (Zpos (Qden x)).

(** [round(x)] with one argument: nearest integer, ties to the even one. *)
Definition py_round (x : Q) : Z :=
  let f := Qfloor x in
  let r := x - inject_Z f in
  if Qltb r (1 # 2) then f
  else if Qltb (1 # 2) r then (f + 1)%Z
  else if Z.even f then f else (f + 1)%Z.

(** [min(x, y)] and [max(x, y)] return the first of two equal arguments. *)
Definition py_min (x y : Q) : Q := if Qltb y x then y else x.
Definition py_max (x y : Q) : Q := if Qltb x y then y else x.

(** [l[:n]]. *)
Definition py_slice_to {A} (l : list A) (n : Z) : list A :=
  if (0 <=? n)%Z then take (Z.to_nat n) l
  else take (length l - Z.to_nat (- n)) l.

(** [c.lower()] and [s.lower()] on ASCII text. *)
Definition ascii_lower (c : Ascii.ascii) : Ascii.ascii :=
  let n := Ascii.nat_of_ascii c in
  if (65 <=? n)%nat && (n <=? 90)%nat then Ascii.ascii_of_nat (n + 32) else c.

Fixpoint str_lower (s : string) : string :=
  match s with
  | EmptyString => EmptyString
  | String c s' => String (ascii_lower c) (str_lower s')
  end.

(** [needle in hay] on strings. *)
Fixpoint str_in (needle hay : string) : bool :=
  String.prefix needle hay ||
  match hay with
  | EmptyString => false
  | String _ hay' => str_in needle hay'
  end.

End Py0.
Export Py0.

(** ** Exploration slots ([_inject_exploration], first statement) *)

(** [max(2, int(target_count * 0.1))].  The product is exact here; the
    binary64 product of the code truncates to the same integer for
    [|target_count| < 2 ^ 52]. *)
Definition exploration_slots (target_count : Z) : Z :=
  Z.max 2 (py_int (inject_Z target_count * (1 # 10))).

(** The count as the specification words it: [max(2, round(0.1 * target_count))]. *)
Definition spec_exploration_slots (target_count : Z) : Z :=
  Z.max 2 (py_round ((1 # 10) * inject_Z target_count)).


(** ** Data model *)

(** The values a [Dict[str, Any]] holds here. *)
Inductive pyval : Type :=
| PyNone
| PyBool (b : bool)
| PyInt (n : Z)
| PyFloat (x : Q)
| PyStr (s : string).

(** A prompt dictionary.  [creator_id] and [created_at] are read with
    [prompt[...]], the other keys with [prompt.get(key, default)]: they are
    optional.  [created_at] is in seconds. *)
Record Prompt : Type := mkPrompt {
  creator_id : string;
  created_at : Q;
  template : option string;
  effectiveness_score : option Q;
  usage_count : option Z;
  remix_count : option Z;
  unique_users : option Z;
  trending_score : option Q
}.

(** The [interaction] dictionary built by [record_interaction]. *)
Record Interaction : Type := mkInteraction {
  i_prompt_id : string;
  i_timestamp : Q;
  i_type : string;
  i_metadata : gmap string pyval
}.

(** One value of [self.user_interactions]. *)
Record UserData : Type := mkUserData {
  views : list Interaction;
  uses : list Interaction;
  remixes : list Interaction;
  skips : list Interaction;
  categories : gmap string Q
}.

(** The factory of [self.user_interactions]: what a first read of a user
    stores and returns. *)
Definition fresh_user_data : UserData :=
  mkUserData [] [] [] [] ∅.

Record ViralThresholds : Type := mkViralThresholds {
  remix_rate_threshold : Q;
  share_rate_threshold : Q;
  completion_rate_threshold : Q
}.

(** The attributes of a [FeedAlgorithm] object. *)
Record FeedAlgorithm : Type := mkFeedAlgorithm {
  recommendation_weights : list (string * Q);
  user_interactions : gmap string UserData;
  trending_patterns : gmap string Q;
  emerging_creators : gset string;
  viral_thresholds : ViralThresholds
}.

(** [FeedAlgorithm.__init__]. *)
Definition init : FeedAlgorithm :=
  mkFeedAlgorithm
    [("effectiveness", 3 # 10); ("novelty", 2 # 10);
     ("viral_potential", 2 # 10); ("user_affinity", 15 # 100);
     ("recency", 1 # 10); ("creator_trust", 5 # 100)]%string
    ∅ ∅ ∅
    (mkViralThresholds (1 # 10) (5 # 100) (8 # 10)).

Definition set_user_interactions (ui : gmap string UserData) (s : FeedAlgorithm) : FeedAlgorithm :=
  mkFeedAlgorithm (recommendation_weights s) ui (trending_patterns s)
                  (emerging_creators s) (viral_thresholds s).

Definition set_trending_patterns (tp : gmap string Q) (s : FeedAlgorithm) : FeedAlgorithm :=
  mkFeedAlgorithm (recommendation_weights s) (user_interactions s) tp
                  (emerging_creators s) (viral_thresholds s).

(** Reading [d[k]] on a [defaultdict(float)]. *)
Definition dd_float (d : gmap string Q) (k : string) : Q := default 0 (d !! k).

(** The momentum of an item as a reader of [trending_patterns] sees it. *)
Definition momentum (s : FeedAlgorithm) (prompt_id : string) : Q :=
  dd_float (trending_patterns s) prompt_id.

(** ** The world a method runs in

    [self], the successive readings of [datetime.utcnow()] and the successive
    draws of [random]. *)
Record World : Type := mkWorld {
  self : FeedAlgorithm;
  clock : nat -> Q;
  clock_reads : nat;
  dice : nat -> Z;
  dice_rolls : nat
}.

Definition Py (A : Type) : Type := World -> result A * World.

Definition ret {A} (a : A) : Py A := fun w => (Ok a, w).

Definition bind {A B} (m : Py A) (k : A -> Py B) : Py B :=
  fun w =>
    match m w with
    | (Ok a, w') => k a w'
    | (Raise e, w') => (Raise e, w')
    end.

#[global] Instance Py_ret : MRet Py := @ret.
#[global] Instance Py_bind : MBind Py := fun A B k m => bind m k.

Definition lift {A} (r : result A) : Py A := fun w => (r, w).

Definition get_self : Py FeedAlgorithm := fun w => (Ok (self w), w).

Definition modify_self (f : FeedAlgorithm -> FeedAlgorithm) : Py unit :=
  fun w => (Ok tt, mkWorld (f (self w)) (clock w) (clock_reads w) (dice w) (dice_rolls w)).

(** [datetime.utcnow()], in seconds. *)
Definition utcnow : Py Q :=
  fun w => (Ok (clock w (clock_reads w)),
            mkWorld (self w) (clock w) (S (clock_reads w)) (dice w) (dice_rolls w)).

(** [random.randint(a, b)]: a draw in [a .. b], [ValueError] on an empty range. *)
Definition randint (a b : Z) : Py Z :=
  fun w =>
    if (b <? a)%Z then (Raise ValueError, w)
    else (Ok (a + dice w (dice_rolls w) mod (b - a + 1))%Z,
          mkWorld (self w) (clock w) (clock_reads w) (dice w) (S (dice_rolls w))).

(** [self.user_interactions[user_id]]: a first read stores the default. *)
Definition read_user_data (user_id : string) : Py UserData :=
  s ← get_self;
  match user_interactions s !! user_id with
  | Some d => mret d
  | None =>
      modify_self (set_user_interactions (<[user_id := fresh_user_data]> (user_interactions s)));;
      mret fresh_user_data
  end.

#[global] Instance result_ret : MRet result := @Ok.
#[global] Instance result_bind : MBind result := fun A B k r => rbind r k.

(** ** Trend tracker *)

(** The literal [weight_map] of [_update_trending_patterns]. *)
Definition weight_map : gmap string Q :=
  <["view" := 1 # 10]> (<["use" := 5 # 10]> (<["remix" := 2]>
  (<["share" := 15 # 10]> (<["skip" := - (3 # 10)]> ∅)))).

(** [weight_map.get(interaction_type, 0)]. *)
Definition event_weight (interaction_type : string) : Q :=
  default 0 (weight_map !! interaction_type).

(** [list(d.keys())].  The loop below treats each key on its own, so the
    order of the keys does not show in its result ([decay_fold_lookup]). *)
Definition keys (d : gmap string Q) : list string := (map_to_list d).*1.

(** One turn of the loop "Decay old patterns":
    [d[pid] *= 0.99], then [del d[pid]] when [d[pid] < 0.01]. *)
Definition decay_one (pid : string) (d : gmap string Q) : gmap string Q :=
  let d' := <[pid := dd_float d pid * (99 # 100)]> d in
  if Qltb (dd_float d' pid) (1 # 100) then delete pid d' else d'.

(** The body of [_update_trending_patterns] on [self.trending_patterns]. *)
Definition update_trending (prompt_id interaction_type : string)
    (d : gmap string Q) : gmap string Q :=
  let weight := event_weight interaction_type in
  let d1 := <[prompt_id := dd_float d prompt_id + weight]> d in
  foldl (fun acc pid => decay_one pid acc) d1 (keys d1).

(** What the decay loop leaves of a stored value: the value times [0.99],
    or nothing when that is below [0.01]. *)
Definition decayed (o : option Q) : option Q :=
  v ← o; if Qltb (v * (99 # 100)) (1 # 100) then None else Some (v * (99 # 100)).

Definition _update_trending_patterns (prompt_id interaction_type : string) : Py unit :=
  modify_self (fun s =>
    set_trending_patterns (update_trending prompt_id interaction_type (trending_patterns s)) s).

(** [_get_prompt_data]: the class returns [None] for every identifier. *)
Definition _get_prompt_data (prompt_id : string) : Py (option Prompt) :=
  mret None.

(** [self.trending_patterns[prompt_id] *= 2.0]. *)
Definition _handle_viral_prompt (prompt_id : string) : Py unit :=
  modify_self (fun s =>
    set_trending_patterns
      (<[prompt_id := dd_float (trending_patterns s) prompt_id * 2]> (trending_patterns s)) s).

(** [_check_viral_threshold] from [if not prompt] on, for the value [prompt]
    that the lookup returned. *)
Definition check_viral_threshold_on (prompt : option Prompt) (prompt_id : string) : Py unit :=
  match prompt with
  | None => mret tt
  | Some p =>
      let usage := default 0%Z (usage_count p) in
      let remix := default 0%Z (remix_count p) in
      if (0 <? usage)%Z then
        remix_rate ← lift (py_truediv remix usage);
        s ← get_self;
        if Qltb (remix_rate_threshold (viral_thresholds s)) remix_rate
        then _handle_viral_prompt prompt_id
        else mret tt
      else mret tt
  end.

Definition _check_viral_threshold (prompt_id : string) : Py unit :=
  prompt ← _get_prompt_data prompt_id;
  check_viral_threshold_on prompt prompt_id.

(** ** Viral potential *)

(** [remix_count / max(usage_count, 1)] and [unique_users / max(usage_count, 1)]. *)
Definition remix_rate_of (prompt : Prompt) : result Q :=
  py_truediv (default 0%Z (remix_count prompt)) (Z.max (default 0%Z (usage_count prompt)) 1).

Definition user_retention_of (prompt : Prompt) : result Q :=
  py_truediv (default 0%Z (unique_users prompt)) (Z.max (default 0%Z (usage_count prompt)) 1).

(** [(datetime.utcnow() - prompt['created_at']).total_seconds() / 3600]. *)
Definition age_hours_at (now : Q) (prompt : Prompt) : Q :=
  (now - created_at prompt) / 3600.

(** The expression bound to [viral_score]. *)
Definition viral_score (remix_rate user_retention trending_momentum recency_boost : Q) : Q :=
  (4 # 10) * py_min (remix_rate * 10) 1
  + (3 # 10) * user_retention
  + (2 # 10) * trending_momentum
  + (1 # 10) * recency_boost.

Definition _calculate_viral_potential (prompt : Prompt) : Py Q :=
  remix_rate ← lift (remix_rate_of prompt);
  user_retention ← lift (user_retention_of prompt);
  let trending_momentum := default 0 (trending_score prompt) in
  now ← utcnow;
  let age_hours := age_hours_at now prompt in
  let recency_boost := if Qltb age_hours 24 then 1 else 8 # 10 in
  mret (viral_score remix_rate user_retention trending_momentum recency_boost).

(** The viral potential of a prompt when the clock reads [now]. *)
Definition viral_potential_at (now : Q) (prompt : Prompt) : Q :=
  let d := inject_Z (Z.max (default 0%Z (usage_count prompt)) 1) in
  viral_score (inject_Z (default 0%Z (remix_count prompt)) / d)
              (inject_Z (default 0%Z (unique_users prompt)) / d)
              (default 0 (trending_score prompt))
              (if Qltb (age_hours_at now prompt) 24 then 1 else 8 # 10).

(** ** Diversity filter *)

Definition _get_prompt_category (prompt : Prompt) : string :=
  let template := str_lower (default "" (template prompt)) in
  if str_in "startup" template || str_in "business" template then "business"
  else if str_in "code" template || str_in "programming" template then "technical"
  else if str_in "write" template || str_in "story" template then "creative"
  else if str_in "analyze" template || str_in "data" template then "analytical"
  else "general".

Definition max_per_creator : Z := 2.
Definition max_per_category : Z := 5.

(** [seen_creators.count(x)] where [seen_creators = set()]: a [set] has no
    attribute [count], so the attribute lookup raises. *)
Definition set_count (seen_creators : gset string) (x : string) : result Z :=
  Raise AttributeError.

(** Reading [d[k]] on a [defaultdict(int)]. *)
Definition dd_int (d : gmap string Z) (k : string) : Z := default 0%Z (d !! k).

(** The loop of [_apply_diversity_filter] over the candidates still to visit. *)
Fixpoint diversity_loop (scored_candidates : list (Q * Prompt)) (target_count : Z)
    (selected : list Prompt) (seen_creators : gset string)
    (seen_categories : gmap string Z) : result (list Prompt) :=
  match scored_candidates with
  | [] => Ok selected
  | (score, prompt) :: rest =>
      n ← set_count seen_creators (creator_id prompt);
      if (max_per_creator <=? n)%Z then
        diversity_loop rest target_count selected seen_creators seen_categories
      else
        let category := _get_prompt_category prompt in
        if (max_per_category <=? dd_int seen_categories category)%Z then
          diversity_loop rest target_count selected seen_creators seen_categories
        else
          let selected' := selected ++ [prompt] in
          let seen_creators' := {[creator_id prompt]} ∪ seen_creators in
          let seen_categories' :=
            <[category := (dd_int seen_categories category + 1)%Z]> seen_categories in
          if (target_count <=? Z.of_nat (length selected'))%Z then Ok selected'
          else diversity_loop rest target_count selected' seen_creators' seen_categories'
  end.

Definition _apply_diversity_filter (scored_candidates : list (Q * Prompt))
    (target_count : Z) : result (list Prompt) :=
  diversity_loop scored_candidates target_count [] ∅ ∅.

(** ** Exploration injector *)

(** [_get_exploration_candidates]: the class returns the empty list. *)
Definition _get_exploration_candidates (count : Z) : Py (list Prompt) :=
  mret [].

(** [feed[index] = prompt]. *)
Definition py_setitem {A} (l : list A) (index : Z) (x : A) : result (list A) :=
  let n := Z.of_nat (length l) in
  if (0 <=? index)%Z && (index <? n)%Z then Ok (<[Z.to_nat index := x]> l)
  else if (- n <=? index)%Z && (index <? 0)%Z then Ok (<[Z.to_nat (n + index) := x]> l)
  else Raise IndexError.

(** The loop "Insert at random positions". *)
Fixpoint inject_loop (exploration_prompts : list Prompt) (target_count : Z)
    (feed : list Prompt) : Py (list Prompt) :=
  match exploration_prompts with
  | [] => mret feed
  | prompt :: rest =>
      if (target_count <=? Z.of_nat (length feed))%Z then
        index ← randint 0 (target_count - 1);
        feed' ← lift (py_setitem feed index prompt);
        inject_loop rest target_count feed'
      else inject_loop rest target_count (feed ++ [prompt])
  end.

(** [_inject_exploration] once the exploration prompts are known. *)
Definition inject_exploration_with (exploration_prompts : list Prompt)
    (feed : list Prompt) (target_count : Z) : Py (list Prompt) :=
  feed' ← inject_loop exploration_prompts target_count feed;
  mret (py_slice_to feed' target_count).

Definition _inject_exploration (feed : list Prompt) (target_count : Z) : Py (list Prompt) :=
  exploration_prompts ← _get_exploration_candidates (exploration_slots target_count);
  inject_exploration_with exploration_prompts feed target_count.

(** ** User profile, scoring and the two entry points *)

(** The dictionary returned by [_build_user_profile]. *)
Record Profile : Type := mkProfile {
  p_user_id : string;
  category_preferences : gmap string Q;
  interaction_patterns : pyval;
  skill_level : pyval;
  exploration_appetite : Q;
  time_patterns : pyval
}.

(** [user_data[...].append(interaction)] on the record stored for [user_id]. *)
Definition append_views (i : Interaction) (d : UserData) : UserData :=
  mkUserData (views d ++ [i]) (uses d) (remixes d) (skips d) (categories d).
Definition append_uses (i : Interaction) (d : UserData) : UserData :=
  mkUserData (views d) (uses d ++ [i]) (remixes d) (skips d) (categories d).
Definition append_remixes (i : Interaction) (d : UserData) : UserData :=
  mkUserData (views d) (uses d) (remixes d ++ [i]) (skips d) (categories d).
Definition append_skips (i : Interaction) (d : UserData) : UserData :=
  mkUserData (views d) (uses d) (remixes d) (skips d ++ [i]) (categories d).

Definition update_user (user_id : string) (f : UserData -> UserData) : Py unit :=
  modify_self (fun s => set_user_interactions (alter f user_id (user_interactions s)) s).

(** [scored_candidates.sort(key=lambda x: x[0], reverse=True)]: a stable sort,
    highest score first. *)
Fixpoint insert_desc (x : Q * Prompt) (l : list (Q * Prompt)) : list (Q * Prompt) :=
  match l with
  | [] => [x]
  | y :: l' => if Qltb x.1 y.1 then y :: insert_desc x l' else x :: y :: l'
  end.

Definition sort_desc (l : list (Q * Prompt)) : list (Q * Prompt) :=
  foldr insert_desc [] l.

(** The kinds [record_interaction] and [weight_map] know. *)
Definition known_kinds : list string := ["view"; "use"; "remix"; "skip"; "share"].

(** The kinds for which [record_interaction] calls
    [_update_category_affinities]. *)
Definition affinity_kinds : list string := ["use"; "remix"; "skip"].

(** No stored momentum is negative. *)
Definition stored_nonneg (s : FeedAlgorithm) : Prop :=
  forall q v, trending_patterns s !! q = Some v -> 0 <= v.

(** The decay as the specification words it: [0.99] to the power of the
    time elapsed since the item's last update. *)
Definition spec_decay (m : Q) (elapsed_units : Z) : Q :=
  m * (99 # 100) ^ elapsed_units.

(** The arguments of one call of [record_interaction]. *)
Record Event : Type := mkEvent {
  ev_user : string;
  ev_prompt : string;
  ev_kind : string;
  ev_metadata : gmap string pyval
}.

(** An event whose kind lets [record_interaction] reach the trend update. *)
Definition returning (e : Event) : Prop := ev_kind e ∉ affinity_kinds.

(** ** Methods the class does not define *)

(** The attributes of a [FeedAlgorithm] object: the five that [__init__]
    sets and the methods of the class.  The class has no base class and no
    [__getattr__]; no other file of the repository mentions it. *)
Definition class_attributes : list string :=
  ["recommendation_weights"; "user_interactions"; "trending_patterns";
   "emerging_creators"; "viral_thresholds";
   "__init__"; "get_feed"; "record_interaction"; "_build_user_profile";
   "_calculate_prompt_score"; "_calculate_viral_potential";
   "_apply_diversity_filter"; "_inject_exploration"; "_update_trending_patterns";
   "_check_viral_threshold"; "_handle_viral_prompt"; "_get_prompt_category";
   "_get_exploration_candidates"; "_get_prompt_data"].

(** The methods the class calls on [self] and does not define. *)
Definition undefined_methods : list string :=
  ["_update_category_affinities"; "_analyze_interaction_patterns";
   "_estimate_skill_level"; "_calculate_exploration_appetite";
   "_analyze_time_patterns"; "_gather_candidates"; "_count_similar_seen";
   "_calculate_user_affinity"; "_get_creator_trust_score"; "_track_impressions"].

(** [self.name(...)] for one of these names: the lookup of the attribute
    raises [AttributeError], before any argument is evaluated, and leaves the
    world as it is. *)
Definition call_undefined {A} (name : string) : Py A :=
  fun w => (Raise AttributeError, w).

(** ** Sample data *)

Definition sample_prompt : Prompt :=
  mkPrompt "creator_1" 0 (Some "Write a story") (Some (8 # 10))
           (Some 100%Z) (Some 15%Z) (Some 40%Z) (Some (1 # 2)).

Definition zero_usage_prompt : Prompt :=
  mkPrompt "creator_2" 0 None None (Some 0%Z) (Some 5%Z) (Some 3%Z) None.

(** A second prompt, by another creator. *)
Definition other_prompt : Prompt :=
  mkPrompt "creator_3" 0 (Some "Analyze the data") None (Some 10%Z) (Some 0%Z) (Some 10%Z) None.

(** Two events for items other than ["a"], of kinds that reach the trend
    update. *)
Definition sample_events : list Event :=
  [mkEvent "user_2" "b" "view" ∅; mkEvent "user_3" "c" "like" ∅].

(** A clock that advances by [step] seconds at each reading, and a fresh
    engine under it. *)
Definition stepping_clock (step : Q) : nat -> Q := fun n => step * inject_Z (Z.of_nat n).

Definition fresh_world (clock : nat -> Q) : World :=
  mkWorld init clock 0 (fun _ => 0%Z) 0.

(** An engine that tracks item ["p"] with momentum 1. *)
Definition world_tracking_p : World :=
  mkWorld (set_trending_patterns {["p" := 1]} init) (stepping_clock 1) 0 (fun _ => 0%Z) 0.

(** ** The methods that call undefined ones *)

(** *** [record_interaction] *)

Definition record_interaction (user_id prompt_id interaction_type : string)
    (metadata : gmap string pyval) : Py unit :=
  timestamp ← utcnow;
  let interaction := mkInteraction prompt_id timestamp interaction_type metadata in
  user_data ← read_user_data user_id;
  (if decide (interaction_type = "view") then
     update_user user_id (append_views interaction)
   else if decide (interaction_type = "use") then
     update_user user_id (append_uses interaction);;
     call_undefined "_update_category_affinities"
   else if decide (interaction_type = "remix") then
     update_user user_id (append_remixes interaction);;
     call_undefined "_update_category_affinities"
   else if decide (interaction_type = "skip") then
     update_user user_id (append_skips interaction);;
     call_undefined "_update_category_affinities"
   else mret tt);;
  _update_trending_patterns prompt_id interaction_type;;
  _check_viral_threshold prompt_id.

(** A run of calls of [record_interaction], one per event, in order; a call
    that raises ends the run. *)
Fixpoint record_all (events : list Event) : Py unit :=
  match events with
  | [] => mret tt
  | e :: rest =>
      record_interaction (ev_user e) (ev_prompt e) (ev_kind e) (ev_metadata e);;
      record_all rest
  end.

(** *** [_build_user_profile] *)

Definition _build_user_profile (user_id : string) : Py Profile :=
  user_data ← read_user_data user_id;
  interaction_patterns ← call_undefined "_analyze_interaction_patterns";
  skill_level ← call_undefined "_estimate_skill_level";
  exploration_appetite ← call_undefined "_calculate_exploration_appetite";
  time_patterns ← call_undefined "_analyze_time_patterns";
  mret (mkProfile user_id (categories user_data) interaction_patterns skill_level
          exploration_appetite time_patterns).

Section Scorer.

(** [numpy.exp]. *)
Variable np_exp : Q -> Q.

(** *** [_calculate_prompt_score] *)

Definition _calculate_prompt_score (prompt : Prompt) (user_profile : Profile) : Py Q :=
  let effectiveness := default (1 # 2) (effectiveness_score prompt) in
  seen_similar ← call_undefined "_count_similar_seen";
  novelty ← lift (py_fdiv 1 (1 + seen_similar));
  viral_potential ← _calculate_viral_potential prompt;
  user_affinity ← call_undefined "_calculate_user_affinity";
  now ← utcnow;
  let age_hours := age_hours_at now prompt in
  let recency := np_exp (- age_hours / 168) in
  creator_trust ← call_undefined "_get_creator_trust_score";
  let scores : gmap string Q :=
    <["effectiveness" := effectiveness]> (<["novelty" := novelty]>
    (<["viral_potential" := viral_potential]> (<["user_affinity" := user_affinity]>
    (<["recency" := recency]> (<["creator_trust" := creator_trust]> ∅))))) in
  s ← get_self;
  let final_score :=
    foldl (fun acc fw => acc + fw.2 * default 0 (scores !! fw.1)) 0
          (recommendation_weights s) in
  mret (if Qltb (7 # 10) (exploration_appetite user_profile)
        then final_score * (12 # 10) else final_score).

(** *** [get_feed] *)

(** The loop "Score and rank". *)
Fixpoint score_all (candidates : list Prompt) (user_profile : Profile)
    : Py (list (Q * Prompt)) :=
  match candidates with
  | [] => mret []
  | prompt :: rest =>
      score ← _calculate_prompt_score prompt user_profile;
      scored ← score_all rest user_profile;
      mret ((score, prompt) :: scored)
  end.

Definition get_feed (user_id : string) (count : Z) : Py (list Prompt) :=
  user_profile ← _build_user_profile user_id;
  candidates ← call_undefined "_gather_candidates";
  scored_candidates ← score_all candidates user_profile;
  let scored_candidates := sort_desc scored_candidates in
  diverse_feed ← lift (_apply_diversity_filter scored_candidates count);
  final_feed ← _inject_exploration diverse_feed count;
  unit_result ← call_undefined (A := unit) "_track_impressions";
  mret final_feed.

End Scorer.

(** ** Sample runs *)

(** The engine after "share" on item ["a"], under a clock of the given step,
    and after a further event of the given kind on item ["b"]. *)
Definition world_after_share (step : Q) : World :=
  (record_interaction "user_1" "a" "share" ∅ (fresh_world (stepping_clock step))).2.

Definition world_after_second (step : Q) (interaction_type : string) : World :=
  (record_interaction "user_2" "b" interaction_type ∅ (world_after_share step)).2.

(** * Properties *)

(** ** Arithmetic of the embedding *)

Lemma Qltb_lt x y : Qltb x y = true <-> x < y.
Proof.
  unfold Qltb. rewrite negb_true_iff, <- not_true_iff_false, Qle_bool_iff.
  split; [apply Qnot_le_lt | apply Qlt_not_le].
Qed.

Lemma Qltb_ge x y : Qltb x y = false <-> y <= x.
Proof. unfold Qltb. rewrite negb_false_iff. apply Qle_bool_iff. Qed.

Lemma py_int_tenth (n : Z) : py_int (inject_Z n * (1 # 10)) = (n ÷ 10)%Z.
Proof. unfold py_int. simpl. by rewrite Z.mul_1_r. Qed.

(** ** Undefined methods *)

Lemma undefined_methods_are_no_attributes :
  Forall (fun name => name ∉ class_attributes) undefined_methods.
Proof.
  unfold undefined_methods, class_attributes.
  repeat (apply Forall_cons; split;
          [rewrite !not_elem_of_cons; repeat split; try done; apply not_elem_of_nil|]).
  apply Forall_nil_2.
Qed.

(** ** Exploration slots *)

(** C6. For a target between 1 and [2 ^ 52], the number of exploration slots
    requested is [max(2, target_count // 10)]: the tenth of the target
    truncated, not rounded, and never less than 2. *)
Theorem exploration_slots_truncates (target_count : Z) :
  (1 <= target_count < 2 ^ 52)%Z ->
  exploration_slots target_count = Z.max 2 (target_count / 10).
Proof.
  intros [H1 _]. unfold exploration_slots.
  rewrite py_int_tenth, Z.quot_div_nonneg by lia. reflexivity.
Qed.

Lemma exploration_slots_ge_2 (target_count : Z) : (2 <= exploration_slots target_count)%Z.
Proof. unfold exploration_slots. lia. Qed.

(** ** Diversity filter *)

Lemma diversity_filter_empty (target_count : Z) :
  _apply_diversity_filter [] target_count = Ok [].
Proof. reflexivity. Qed.

Lemma diversity_filter_first_candidate (c : Q * Prompt) (cs : list (Q * Prompt))
    (target_count : Z) :
  _apply_diversity_filter (c :: cs) target_count = Raise AttributeError.
Proof. destruct c as [score prompt]. reflexivity. Qed.

(** C1. [_apply_diversity_filter] returns a list, the empty one, only for the
    empty input: on every input with at least one candidate it raises
    [AttributeError] at the first candidate ([seen_creators] is a [set] and
    is asked for [count]), whatever [target_count] is. *)
Theorem diversity_filter_raises (scored_candidates : list (Q * Prompt)) (target_count : Z) :
  _apply_diversity_filter scored_candidates target_count
  = match scored_candidates with
    | [] => Ok []
    | _ :: _ => Raise AttributeError
    end.
Proof.
  destruct scored_candidates as [|c cs];
    [reflexivity | apply diversity_filter_first_candidate].
Qed.

(** ** Decay of the trend map *)

Lemma decay_one_lookup (pid q : string) (d : gmap string Q) :
  decay_one pid d !! q = if decide (q = pid) then decayed (d !! pid) else d !! q.
Proof.
  unfold decay_one, dd_float. rewrite lookup_insert_eq. simpl.
  destruct (d !! pid) as [v|] eqn:E; simpl.
  - destruct (Qltb (v * (99 # 100)) (1 # 100)); case_decide; subst;
      rewrite ?lookup_delete_eq, ?lookup_delete_ne, ?lookup_insert_eq, ?lookup_insert_ne; auto.
  - change (Qltb (0 * (99 # 100)) (1 # 100)) with true.
    case_decide; subst; rewrite ?lookup_delete_eq, ?lookup_delete_ne, ?lookup_insert_ne; auto.
Qed.

Lemma decay_fold_lookup (l : list string) (d : gmap string Q) (q : string) :
  NoDup l ->
  foldl (fun acc pid => decay_one pid acc) d l !! q
  = if decide (q ∈ l) then decayed (d !! q) else d !! q.
Proof.
  revert d. induction l as [|x l IH]; intros d Hnd; cbn [foldl].
  - rewrite decide_False by set_solver. done.
  - apply NoDup_cons in Hnd as [Hx Hnd]. rewrite IH by done.
    rewrite decay_one_lookup.
    destruct (decide (q = x)) as [->|Hne].
    + rewrite decide_False by done. rewrite decide_True; [done | set_solver].
    + destruct (decide (q ∈ l)).
      * rewrite decide_True; [done | set_solver].
      * rewrite decide_False; [done | by apply not_elem_of_cons].
Qed.

Lemma decay_all_lookup (d : gmap string Q) (q : string) :
  foldl (fun acc pid => decay_one pid acc) d (keys d) !! q = decayed (d !! q).
Proof.
  unfold keys. rewrite decay_fold_lookup by apply NoDup_fst_map_to_list.
  case_decide as Hin; [done|].
  destruct (d !! q) as [v|] eqn:E; [|done].
  exfalso. apply Hin. apply list_elem_of_fmap. exists (q, v). split; [done|].
  by apply elem_of_map_to_list.
Qed.

Lemma update_trending_lookup (prompt_id interaction_type q : string) (d : gmap string Q) :
  update_trending prompt_id interaction_type d !! q
  = decayed (<[prompt_id := dd_float d prompt_id + event_weight interaction_type]> d !! q).
Proof. unfold update_trending. apply decay_all_lookup. Qed.

Lemma decayed_ge (o : option Q) (v : Q) : decayed o = Some v -> 1 # 100 <= v.
Proof.
  destruct o as [x|]; simpl; [|done].
  destruct (Qltb (x * (99 # 100)) (1 # 100)) eqn:E; [done|].
  intros [= <-]. by apply Qltb_ge.
Qed.

Lemma default_decayed_le (o : option Q) :
  (forall v, o = Some v -> 0 <= v) -> default 0 (decayed o) <= default 0 o.
Proof.
  destruct o as [x|]; simpl; [|intros _; apply Qle_refl].
  intros H. specialize (H x eq_refl).
  destruct (Qltb (x * (99 # 100)) (1 # 100)); simpl; lra.
Qed.

Lemma event_weight_unknown (interaction_type : string) :
  interaction_type ∉ known_kinds -> event_weight interaction_type = 0.
Proof.
  unfold known_kinds. rewrite !not_elem_of_cons. intros (Hv & Hu & Hr & Hk & Hs & _).
  unfold event_weight, weight_map.
  rewrite !lookup_insert_ne by done. reflexivity.
Qed.

(** ** Running the monad *)

Ltac run_py :=
  unfold mbind, mret, Py_bind, Py_ret, result_bind, result_ret, bind, ret, rbind,
    lift, get_self, modify_self, utcnow; cbn [fst snd self clock clock_reads dice dice_rolls].

Lemma check_viral_threshold_noop (prompt_id : string) (w : World) :
  _check_viral_threshold prompt_id w = (Ok tt, w).
Proof. reflexivity. Qed.

(** ** Viral check *)

(** C2. A viral check doubles the item's momentum whenever the prompt data
    it is given has a positive [usage_count] and a remix rate above the
    threshold, at every such check and with no memory of earlier ones; it
    changes nothing otherwise.  The lookup of the class returns no data, so
    [_check_viral_threshold] itself changes nothing. *)
Theorem viral_check_effect (prompt : option Prompt) (prompt_id : string) (w : World) :
  check_viral_threshold_on prompt prompt_id w
  = (Ok tt,
     match prompt with
     | Some p =>
         if (0 <? default 0 (usage_count p))%Z
            && Qltb (remix_rate_threshold (viral_thresholds (self w)))
                    (inject_Z (default 0%Z (remix_count p))
                     / inject_Z (default 0%Z (usage_count p)))
         then mkWorld
                (set_trending_patterns
                   (<[prompt_id := momentum (self w) prompt_id * 2]>
                      (trending_patterns (self w))) (self w))
                (clock w) (clock_reads w) (dice w) (dice_rolls w)
         else w
     | None => w
     end)
  /\ _check_viral_threshold prompt_id w = (Ok tt, w).
Proof.
  split; [|reflexivity].
  destruct prompt as [p|]; [|reflexivity].
  unfold check_viral_threshold_on, py_truediv, _handle_viral_prompt.
  destruct (0 <? default 0 (usage_count p))%Z eqn:Hu; [|reflexivity].
  assert ((default 0 (usage_count p) =? 0)%Z = false) as -> by lia.
  run_py. destruct (Qltb _ _); reflexivity.
Qed.

(** ** Ratios at [usage_count = 0] *)

Lemma viral_potential_value (prompt : Prompt) (w : World) :
  _calculate_viral_potential prompt w
  = (Ok (viral_potential_at (clock w (clock_reads w)) prompt),
     mkWorld (self w) (clock w) (S (clock_reads w)) (dice w) (dice_rolls w)).
Proof.
  unfold _calculate_viral_potential, remix_rate_of, user_retention_of, py_truediv.
  assert ((Z.max (default 0 (usage_count prompt)) 1 =? 0)%Z = false) as -> by lia.
  reflexivity.
Qed.

(** C3. For a candidate whose [usage_count] is 0 (or absent) no ratio raises:
    [_calculate_viral_potential] divides by [max(usage_count, 1) = 1], so the
    remix rate is [remix_count] and the retention is [unique_users], and it
    returns a value; the viral check skips the division and changes
    nothing. *)
Theorem zero_usage_ratios (prompt : Prompt) (prompt_id : string) (w : World) :
  default 0%Z (usage_count prompt) = 0%Z ->
  remix_rate_of prompt = Ok (inject_Z (default 0%Z (remix_count prompt)) / 1)
  /\ user_retention_of prompt = Ok (inject_Z (default 0%Z (unique_users prompt)) / 1)
  /\ (exists v, (_calculate_viral_potential prompt w).1 = Ok v)
  /\ check_viral_threshold_on (Some prompt) prompt_id w = (Ok tt, w).
Proof.
  intros Hz. unfold remix_rate_of, user_retention_of, check_viral_threshold_on.
  rewrite Hz. repeat split; try reflexivity.
  rewrite viral_potential_value. by eexists.
Qed.

(** ** [record_interaction] *)

Lemma not_affinity_kind (interaction_type : string) :
  interaction_type ∉ affinity_kinds <->
  interaction_type <> "use" /\ interaction_type <> "remix" /\ interaction_type <> "skip".
Proof.
  unfold affinity_kinds. rewrite !not_elem_of_cons. split.
  - intros (Hu & Hr & Hs & _). done.
  - intros (Hu & Hr & Hs). repeat split; try done. apply not_elem_of_nil.
Qed.

Lemma is_affinity_kind (interaction_type : string) :
  interaction_type ∈ affinity_kinds <->
  interaction_type = "use" \/ interaction_type = "remix" \/ interaction_type = "skip".
Proof. unfold affinity_kinds. rewrite !elem_of_cons, elem_of_nil. tauto. Qed.

(** A call whose kind is not use, remix or skip returns: one clock reading
    is consumed, the trend map is the one [update_trending] computes, and only
    the per-user data changes besides. *)
Lemma record_interaction_returns (user_id prompt_id interaction_type : string)
    (metadata : gmap string pyval) (w : World) :
  interaction_type ∉ affinity_kinds ->
  exists ui',
    record_interaction user_id prompt_id interaction_type metadata w
    = (Ok tt,
       mkWorld
         (mkFeedAlgorithm (recommendation_weights (self w)) ui'
            (update_trending prompt_id interaction_type (trending_patterns (self w)))
            (emerging_creators (self w)) (viral_thresholds (self w)))
         (clock w) (S (clock_reads w)) (dice w) (dice_rolls w)).
Proof.
  intros (Hu & Hr & Hs)%not_affinity_kind.
  unfold record_interaction, read_user_data, update_user, _update_trending_patterns,
    _check_viral_threshold, _get_prompt_data, check_viral_threshold_on.
  run_py.
  destruct (user_interactions (self w) !! user_id) eqn:E; run_py;
    repeat (case_decide; try done; run_py); eexists; reflexivity.
Qed.

(** A call whose kind is use, remix or skip raises [AttributeError] at the
    call of [_update_category_affinities]: the clock has been read and the
    log written, the trend map is untouched. *)
Lemma record_interaction_raises (user_id prompt_id interaction_type : string)
    (metadata : gmap string pyval) (w : World) :
  interaction_type ∈ affinity_kinds ->
  exists ui',
    record_interaction user_id prompt_id interaction_type metadata w
    = (Raise AttributeError,
       mkWorld
         (mkFeedAlgorithm (recommendation_weights (self w)) ui'
            (trending_patterns (self w))
            (emerging_creators (self w)) (viral_thresholds (self w)))
         (clock w) (S (clock_reads w)) (dice w) (dice_rolls w)).
Proof.
  intros [-> | [-> | ->]]%is_affinity_kind;
    unfold record_interaction, read_user_data, update_user, call_undefined;
    run_py;
    (destruct (user_interactions (self w) !! user_id) eqn:E; run_py;
     repeat (case_decide; try done; run_py); eexists; reflexivity).
Qed.

Lemma record_interaction_trending (user_id prompt_id interaction_type : string)
    (metadata : gmap string pyval) (w : World) :
  trending_patterns (self (record_interaction user_id prompt_id interaction_type metadata w).2)
  = if decide (interaction_type ∈ affinity_kinds) then trending_patterns (self w)
    else update_trending prompt_id interaction_type (trending_patterns (self w)).
Proof.
  case_decide as Hk.
  - destruct (record_interaction_raises user_id prompt_id interaction_type metadata w Hk)
      as [ui' ->]. reflexivity.
  - destruct (record_interaction_returns user_id prompt_id interaction_type metadata w Hk)
      as [ui' ->]. reflexivity.
Qed.

Lemma unknown_is_no_affinity_kind (interaction_type : string) :
  interaction_type ∉ known_kinds -> interaction_type ∉ affinity_kinds.
Proof.
  unfold known_kinds. rewrite !not_elem_of_cons. intros (Hv & Hu & Hr & Hs & _).
  by apply not_affinity_kind.
Qed.

(** C10. The decay of [record_interaction] depends on the kind.  For every
    kind but use, remix and skip the call returns and leaves as trend map the
    old one, with the event's weight added to the event's item, decayed: each
    stored momentum is multiplied by [0.99] and the entry is deleted when the
    product is below [0.01], so every other tracked item is multiplied by
    [0.99] or evicted.  For use, remix and skip the call raises
    [AttributeError] and the trend map is left as it was: nothing is
    decayed. *)
Theorem record_interaction_decay_by_kind (user_id prompt_id interaction_type : string)
    (metadata : gmap string pyval) (w : World) :
  let r := record_interaction user_id prompt_id interaction_type metadata w in
  (interaction_type ∉ affinity_kinds ->
     r.1 = Ok tt
     /\ (forall q,
           trending_patterns (self r.2) !! q
           = decayed (<[prompt_id := momentum (self w) prompt_id
                                      + event_weight interaction_type]>
                        (trending_patterns (self w)) !! q))
     /\ (forall q v,
           q <> prompt_id -> trending_patterns (self w) !! q = Some v ->
           trending_patterns (self r.2) !! q
           = if Qltb (v * (99 # 100)) (1 # 100) then None else Some (v * (99 # 100))))
  /\ (interaction_type ∈ affinity_kinds ->
        r.1 = Raise AttributeError
        /\ trending_patterns (self r.2) = trending_patterns (self w)).
Proof.
  cbv zeta. split; intros Hk.
  - rewrite record_interaction_trending, decide_False by done.
    destruct (record_interaction_returns user_id prompt_id interaction_type metadata w Hk)
      as [ui' ->].
    split; [reflexivity|]. split.
    + intros q. apply update_trending_lookup.
    + intros q v Hne Hq. rewrite update_trending_lookup, lookup_insert_ne by done.
      rewrite Hq. reflexivity.
  - rewrite record_interaction_trending, decide_True by done.
    destruct (record_interaction_raises user_id prompt_id interaction_type metadata w Hk)
      as [ui' ->].
    split; reflexivity.
Qed.

(** C5. The trend map after a call of [record_interaction] does not depend
    on the clock.  A call of a kind other than use, remix and skip returns
    and sets the trend map to the decayed one: every stored momentum is
    multiplied by [0.99] once, after the event's weight is added to the
    event's item, and what remains stored is at least [0.01].  For every
    call, when no stored momentum is negative, the momentum of an item other
    than the event's does not increase, and a momentum increases strictly
    only for the event's item and a positive weight. *)
Theorem momentum_step (user_id prompt_id interaction_type : string)
    (metadata : gmap string pyval) (w : World) :
  stored_nonneg (self w) ->
  let r := record_interaction user_id prompt_id interaction_type metadata w in
  let w' := r.2 in
  (forall clock' reads',
      trending_patterns
        (self (record_interaction user_id prompt_id interaction_type metadata
                 (mkWorld (self w) clock' reads' (dice w) (dice_rolls w))).2)
      = trending_patterns (self w'))
  /\ (interaction_type ∉ affinity_kinds ->
        r.1 = Ok tt
        /\ (forall q,
              trending_patterns (self w') !! q
              = decayed (<[prompt_id := momentum (self w) prompt_id
                                         + event_weight interaction_type]>
                           (trending_patterns (self w)) !! q))
        /\ (forall q v, trending_patterns (self w') !! q = Some v -> 1 # 100 <= v))
  /\ (forall q, q <> prompt_id -> momentum (self w') q <= momentum (self w) q)
  /\ (forall q, momentum (self w) q < momentum (self w') q ->
        q = prompt_id /\ 0 < event_weight interaction_type).
Proof.
  intros Hnn. cbv zeta.
  split; [intros clock' reads'; by rewrite !record_interaction_trending|].
  split.
  { intros Hk.
    destruct (record_interaction_returns user_id prompt_id interaction_type metadata w Hk)
      as [ui' ->].
    split; [reflexivity|]. cbn [snd self trending_patterns]. split.
    - intros q. apply update_trending_lookup.
    - intros q v. rewrite update_trending_lookup. apply decayed_ge. }
  unfold momentum, dd_float. rewrite record_interaction_trending.
  case_decide as Hk.
  { split; [intros q _; apply Qle_refl | intros q Hlt; lra]. }
  assert (Hother : forall q, q <> prompt_id ->
    default 0 (update_trending prompt_id interaction_type (trending_patterns (self w)) !! q)
    <= default 0 (trending_patterns (self w) !! q)).
  { intros q Hne. rewrite update_trending_lookup, lookup_insert_ne by done.
    apply default_decayed_le. intros v Hv. by apply (Hnn q). }
  split; [exact Hother|].
  intros q Hlt. destruct (decide (q = prompt_id)) as [->|Hne].
  - split; [done|].
    assert (0 <= default 0 (trending_patterns (self w) !! prompt_id)) as Hm.
    { destruct (trending_patterns (self w) !! prompt_id) as [v|] eqn:E; simpl;
        [by apply (Hnn prompt_id) | apply Qle_refl]. }
    revert Hlt. rewrite update_trending_lookup, lookup_insert_eq.
    unfold momentum, dd_float.
    remember (default 0 (trending_patterns (self w) !! prompt_id)) as m eqn:Em.
    simpl. destruct (Qltb _ _); simpl; lra.
  - specialize (Hother q Hne). lra.
Qed.

(** ** Unknown interaction kinds *)

(** C4. [record_interaction] with a kind outside view, use, remix, skip,
    share returns normally; it appends to no log and changes no stored user
    record, but it stores the empty record for a user seen for the first
    time, reads the clock, and updates the trend map as for an event of
    weight 0: the event's item is entered and every item is decayed. *)
Theorem unknown_kind_effect (user_id prompt_id interaction_type : string)
    (metadata : gmap string pyval) (w : World) :
  interaction_type ∉ known_kinds ->
  record_interaction user_id prompt_id interaction_type metadata w
  = (Ok tt,
     mkWorld
       (mkFeedAlgorithm (recommendation_weights (self w))
          (match user_interactions (self w) !! user_id with
           | Some _ => user_interactions (self w)
           | None => <[user_id := fresh_user_data]> (user_interactions (self w))
           end)
          (update_trending prompt_id interaction_type (trending_patterns (self w)))
          (emerging_creators (self w)) (viral_thresholds (self w)))
       (clock w) (S (clock_reads w)) (dice w) (dice_rolls w))
  /\ event_weight interaction_type = 0
  /\ (forall q,
        update_trending prompt_id interaction_type (trending_patterns (self w)) !! q
        = decayed (<[prompt_id := momentum (self w) prompt_id + 0]>
                     (trending_patterns (self w)) !! q)).
Proof.
  intros Hk. split; [|split; [by apply event_weight_unknown|]].
  - revert Hk. unfold known_kinds. rewrite !not_elem_of_cons.
    intros (Hv & Hu & Hr & Hs & _).
    unfold record_interaction, read_user_data, update_user, _update_trending_patterns,
      _check_viral_threshold, _get_prompt_data, check_viral_threshold_on.
    run_py.
    destruct (user_interactions (self w) !! user_id) eqn:E; run_py;
      rewrite !decide_False by done; run_py; rewrite ?E; reflexivity.
  - intros q. rewrite update_trending_lookup, (event_weight_unknown _ Hk). reflexivity.
Qed.

(** ** Scoring and the clock *)


(** ** Profile building *)

Lemma read_user_data_run (user_id : string) (w : World) :
  read_user_data user_id w
  = (Ok (default fresh_user_data (user_interactions (self w) !! user_id)),
     mkWorld
       (set_user_interactions
          (<[user_id := default fresh_user_data (user_interactions (self w) !! user_id)]>
             (user_interactions (self w))) (self w))
       (clock w) (clock_reads w) (dice w) (dice_rolls w)).
Proof.
  unfold read_user_data. run_py.
  destruct (user_interactions (self w) !! user_id) as [d|] eqn:E; run_py;
    cbn [default from_option id]; [|reflexivity].
  rewrite insert_id by done. by destruct w as [[] ? ? ? ?].
Qed.

Lemma build_user_profile_run (user_id : string) (w : World) :
  _build_user_profile user_id w
  = (Raise AttributeError, (read_user_data user_id w).2).
Proof.
  unfold _build_user_profile. run_py. rewrite read_user_data_run. reflexivity.
Qed.

(** C9. [_build_user_profile] builds no profile: for every user it raises
    [AttributeError] at the call of [_analyze_interaction_patterns].  By then
    the user's record has been read, which stores the empty record for a user
    without one; in that record every category affinity reads 0. *)
Theorem profile_build_raises (user_id : string) (w : World) :
  let ui := user_interactions (self w) in
  let r := _build_user_profile user_id w in
  r.1 = Raise AttributeError
  /\ r.2 = mkWorld
             (set_user_interactions
                (<[user_id := default fresh_user_data (ui !! user_id)]> ui) (self w))
             (clock w) (clock_reads w) (dice w) (dice_rolls w)
  /\ (ui !! user_id = None ->
      exists d, user_interactions (self r.2) !! user_id = Some d
                /\ forall category, dd_float (categories d) category = 0).
Proof.
  cbv zeta. rewrite build_user_profile_run, read_user_data_run. cbn [fst snd].
  split; [reflexivity|]. split; [reflexivity|].
  intros Hnew. rewrite Hnew. exists fresh_user_data.
  cbn [self user_interactions set_user_interactions default from_option id].
  split; [apply lookup_insert_eq | reflexivity].
Qed.

(** ** Exploration injection *)

Lemma py_slice_to_length {A} (l : list A) (n : Z) :
  (0 <= n)%Z -> Z.of_nat (length (py_slice_to l n)) = Z.min n (Z.of_nat (length l)).
Proof.
  intros Hn. unfold py_slice_to. assert ((0 <=? n)%Z = true) as -> by lia.
  rewrite length_take. lia.
Qed.

Lemma randint_in_range (b : Z) (w : World) :
  (0 <= b)%Z ->
  exists i, (0 <= i <= b)%Z
    /\ randint 0 b w
       = (Ok i, mkWorld (self w) (clock w) (clock_reads w) (dice w) (S (dice_rolls w))).
Proof.
  intros Hb. unfold randint. assert ((b <? 0)%Z = false) as -> by lia.
  eexists. split; [|reflexivity].
  pose proof (Z.mod_pos_bound (dice w (dice_rolls w)) (b - 0 + 1)). lia.
Qed.

(** The injection loop returns for a target of at least 1; it overwrites in
    place when the feed has reached the target and appends otherwise. *)
Lemma inject_loop_returns (exploration_prompts : list Prompt) (target_count : Z)
    (feed : list Prompt) (w : World) :
  (1 <= target_count)%Z ->
  exists feed' w',
    inject_loop exploration_prompts target_count feed w = (Ok feed', w')
    /\ self w' = self w
    /\ (Z.of_nat (length feed')
        = Z.max (Z.of_nat (length feed))
            (Z.min target_count (Z.of_nat (length feed + length exploration_prompts))))%Z.
Proof.
  intros Ht. revert feed w.
  induction exploration_prompts as [|p rest IH]; intros feed w; cbn [inject_loop].
  - exists feed, w. split; [reflexivity|]. split; [reflexivity|]. simpl. lia.
  - destruct (target_count <=? Z.of_nat (length feed))%Z eqn:E.
    + destruct (randint_in_range (target_count - 1) w) as (i & Hi & Hr); [lia|].
      run_py. rewrite Hr. unfold py_setitem.
      assert (((0 <=? i)%Z && (i <? Z.of_nat (length feed))%Z) = true) as ->.
      { apply andb_true_intro. split; lia. }
      destruct (IH (<[Z.to_nat i := p]> feed)
                  (mkWorld (self w) (clock w) (clock_reads w) (dice w) (S (dice_rolls w))))
        as (feed' & w' & Hrun & Hself & Hlen).
      rewrite Hrun. exists feed', w'. split; [reflexivity|]. split; [exact Hself|].
      rewrite Hlen, length_insert. cbn [length]. lia.
    + destruct (IH (feed ++ [p]) w) as (feed' & w' & Hrun & Hself & Hlen).
      rewrite Hrun. exists feed', w'. split; [reflexivity|]. split; [exact Hself|].
      rewrite Hlen, length_app. cbn [length]. lia.
Qed.

(** [_inject_exploration] returns, for a target of at least 1, a list whose
    length is the smaller of the target and the length of the feed after the
    injection; with the exploration source of the class the feed is only cut. *)
Lemma inject_exploration_length (exploration_prompts feed : list Prompt)
    (target_count : Z) (w : World) :
  (1 <= target_count)%Z ->
  exists feed' out w',
    inject_loop exploration_prompts target_count feed w = (Ok feed', w')
    /\ inject_exploration_with exploration_prompts feed target_count w = (Ok out, w')
    /\ Z.of_nat (length out) = Z.min target_count (Z.of_nat (length feed'))
    /\ (Z.of_nat (length out) <= target_count)%Z.
Proof.
  intros Ht.
  destruct (inject_loop_returns exploration_prompts target_count feed w Ht)
    as (feed' & w' & Hrun & _ & _).
  exists feed', (py_slice_to feed' target_count), w'.
  split; [exact Hrun|]. unfold inject_exploration_with. run_py. rewrite Hrun.
  split; [reflexivity|]. rewrite py_slice_to_length by lia. lia.
Qed.

Lemma inject_exploration_shipped (feed : list Prompt) (target_count : Z) (w : World) :
  _inject_exploration feed target_count w = (Ok (py_slice_to feed target_count), w).
Proof. reflexivity. Qed.

Lemma insert_desc_length (x : Q * Prompt) (l : list (Q * Prompt)) :
  length (insert_desc x l) = S (length l).
Proof. induction l as [|y l IH]; simpl; [done|]. destruct (Qltb _ _); simpl; by rewrite ?IH. Qed.

Lemma sort_desc_length (l : list (Q * Prompt)) : length (sort_desc l) = length l.
Proof.
  induction l as [|x l IH]; simpl; [done|].
  unfold sort_desc in *. simpl. by rewrite insert_desc_length, IH.
Qed.

(** ** [get_feed] *)

Section GetFeed.

Context (np_exp : Q -> Q).

Lemma prompt_score_raises (prompt : Prompt) (profile : Profile) (w : World) :
  _calculate_prompt_score np_exp prompt profile w = (Raise AttributeError, w).
Proof. reflexivity. Qed.

Lemma get_feed_run (user_id : string) (count : Z) (w : World) :
  get_feed np_exp user_id count w = (Raise AttributeError, (read_user_data user_id w).2).
Proof.
  unfold get_feed. run_py. rewrite build_user_profile_run. reflexivity.
Qed.

(** C7. [get_feed] returns no feed: for every user and count it raises
    [AttributeError], at the first undefined method it calls.  Its filtering
    step would fail as well: on any scored list with at least one candidate,
    sorted, the diversity filter raises [AttributeError]. *)
Theorem get_feed_raises (user_id : string) (count : Z) (w : World) :
  (get_feed np_exp user_id count w).1 = Raise AttributeError
  /\ (forall scored_candidates,
        scored_candidates <> [] ->
        _apply_diversity_filter (sort_desc scored_candidates) count = Raise AttributeError).
Proof.
  split; [rewrite get_feed_run; reflexivity|].
  intros scored Hne. destruct (sort_desc scored) as [|c cs] eqn:Hs.
  - exfalso. apply (f_equal length) in Hs. rewrite sort_desc_length in Hs.
    destruct scored; [done | discriminate].
  - apply diversity_filter_first_candidate.
Qed.

End GetFeed.

(** * The properties on concrete runs *)

Lemma like_is_unknown : "like" ∉ known_kinds.
Proof. unfold known_kinds. rewrite !not_elem_of_cons. repeat split; try done. apply not_elem_of_nil. Qed.

(** C6, as stated, fails at [target_count = 26]: the code requests 2 slots
    where [max(2, round(0.1 * 26))] is 3. *)
Lemma exploration_slots_not_rounded :
  (1 <= 26)%Z /\ exploration_slots 26 = 2%Z /\ spec_exploration_slots 26 = 3%Z.
Proof. split; [lia | split; reflexivity]. Qed.

Lemma exploration_slots_truncates_witness :
  exploration_slots 45 = Z.max 2 (45 / 10).
Proof. apply (exploration_slots_truncates 45). lia. Defined.

(** C2, as stated, fails on an item tracked with momentum 1 whose data show
    [usage_count = 100] and [remix_count = 15]: two checks on that data leave
    the momentum at 4, not 2, and the check of the class, whose lookup finds
    no data, leaves it at 1. *)
Lemma viral_amplification_not_once :
  let once := (check_viral_threshold_on (Some sample_prompt) "p" world_tracking_p).2 in
  let twice := (check_viral_threshold_on (Some sample_prompt) "p" once).2 in
  momentum (self world_tracking_p) "p" = 1
  /\ momentum (self once) "p" = 2
  /\ momentum (self twice) "p" = 4
  /\ momentum (self (_check_viral_threshold "p" world_tracking_p).2) "p" = 1.
Proof. vm_compute. repeat split; reflexivity. Qed.

(** C3, as stated, fails for [usage_count = 0], [remix_count = 5],
    [unique_users = 3]: the remix rate is 5 and the retention 3, not 0. *)
Lemma zero_usage_ratio_not_zero :
  usage_count zero_usage_prompt = Some 0%Z
  /\ remix_rate_of zero_usage_prompt = Ok 5
  /\ user_retention_of zero_usage_prompt = Ok 3
  /\ ~ 5 == 0 /\ ~ 3 == 0.
Proof. repeat split; try reflexivity; discriminate. Qed.

Lemma zero_usage_ratios_witness :
  remix_rate_of zero_usage_prompt = Ok (5 / 1)
  /\ user_retention_of zero_usage_prompt = Ok (3 / 1)
  /\ (exists v, (_calculate_viral_potential zero_usage_prompt
                   (fresh_world (stepping_clock 1))).1 = Ok v)
  /\ check_viral_threshold_on (Some zero_usage_prompt) "p" (fresh_world (stepping_clock 1))
     = (Ok tt, fresh_world (stepping_clock 1)).
Proof.
  apply (zero_usage_ratios zero_usage_prompt "p" (fresh_world (stepping_clock 1))).
  reflexivity.
Defined.

(** C4, as stated, fails: after "share" on item ["a"], recording the unknown
    kind "like" for user ["user_2"] on item ["b"] lowers the momentum of
    ["a"] from 1.485 to 1.47015 and stores a record for ["user_2"]. *)
Lemma unknown_kind_changes_state :
  ("like" ∉ known_kinds)
  /\ momentum (self (world_after_share 1)) "a" = 1485 # 1000
  /\ momentum (self (world_after_second 1 "like")) "a" = 147015 # 100000
  /\ user_interactions (self (world_after_share 1)) !! "user_2" = None
  /\ user_interactions (self (world_after_second 1 "like")) !! "user_2" = Some fresh_user_data
  /\ self (world_after_second 1 "like") <> self (world_after_share 1).
Proof.
  split; [apply like_is_unknown|].
  repeat split; try (vm_compute; reflexivity).
  intros H. apply (f_equal (fun s => momentum s "a")) in H.
  vm_compute in H. discriminate.
Qed.

Lemma unknown_kind_effect_witness :
  record_interaction "user_2" "b" "like" ∅ (world_after_share 1)
  = (Ok tt, world_after_second 1 "like")
  /\ event_weight "like" = 0.
Proof.
  destruct (unknown_kind_effect "user_2" "b" "like" ∅ (world_after_share 1) like_is_unknown)
    as (Hrun & Hw & _).
  split; [|exact Hw].
  unfold world_after_second. rewrite Hrun. reflexivity.
Defined.

(** C5, as stated, fails: with a clock that stands still no time elapses
    between "share" on ["a"] and "view" on ["b"], yet the momentum of ["a"]
    goes from 1.485 to 1.47015, where a decay by elapsed time leaves it
    unchanged; and under a clock 1000 seconds further at each reading the
    momentum is the same 1.47015. *)
Lemma decay_ignores_elapsed_time :
  stepping_clock 0 1%nat - stepping_clock 0 0%nat == 0
  /\ momentum (self (world_after_share 0)) "a" = 1485 # 1000
  /\ momentum (self (world_after_second 0 "view")) "a" = 147015 # 100000
  /\ ~ momentum (self (world_after_second 0 "view")) "a"
       == spec_decay (momentum (self (world_after_share 0)) "a") 0
  /\ momentum (self (world_after_second 1000 "view")) "a"
     = momentum (self (world_after_second 0 "view")) "a".
Proof.
  repeat split; try (vm_compute; reflexivity).
  vm_compute. discriminate.
Qed.

Lemma world_after_share_trending (step : Q) :
  trending_patterns (self (world_after_share step)) = {["a" := 1485 # 1000]}.
Proof.
  unfold world_after_share. rewrite record_interaction_trending.
  vm_compute. reflexivity.
Qed.

Lemma view_is_no_affinity_kind : "view" ∉ affinity_kinds.
Proof. by apply not_affinity_kind. Qed.

Lemma momentum_step_witness :
  stored_nonneg (self (world_after_share 1))
  /\ (record_interaction "user_2" "b" "view" ∅ (world_after_share 1)).1 = Ok tt
  /\ (forall q, q <> "b" ->
        momentum (self (world_after_second 1 "view")) q
        <= momentum (self (world_after_share 1)) q)
  /\ (forall q,
        momentum (self (world_after_share 1)) q
        < momentum (self (world_after_second 1 "view")) q ->
        q = "b" /\ 0 < event_weight "view").
Proof.
  assert (stored_nonneg (self (world_after_share 1))) as Hnn.
  { intros q v. rewrite world_after_share_trending.
    intros [_ <-]%lookup_singleton_Some. discriminate. }
  split; [exact Hnn|].
  destruct (momentum_step "user_2" "b" "view" ∅ (world_after_share 1) Hnn)
    as (_ & Hret & Hle & Hlt).
  destruct (Hret view_is_no_affinity_kind) as (Hok & _ & _).
  split; [exact Hok|]. split; [exact Hle | exact Hlt].
Defined.

(** C10 on a run: after "share" on item ["a"], a "use" event on item ["b"]
    raises [AttributeError] and leaves the momentum of ["a"] at 1.485, where
    a "view" event on ["b"] lowers it to 1.47015. *)
Lemma use_event_decays_nothing :
  (record_interaction "user_2" "b" "use" ∅ (world_after_share 1)).1 = Raise AttributeError
  /\ momentum (self (world_after_share 1)) "a" = 1485 # 1000
  /\ momentum (self (world_after_second 1 "use")) "a" = 1485 # 1000
  /\ momentum (self (world_after_second 1 "view")) "a" = 147015 # 100000.
Proof. vm_compute. repeat split; reflexivity. Qed.

(** A "view" event on item ["b"] evicts item ["a"], tracked with momentum
    0.01. *)
Lemma unrelated_item_evicted :
  let w := mkWorld (set_trending_patterns {["a" := 1 # 100]} init)
                   (stepping_clock 1) 0 (fun _ => 0%Z) 0 in
  let w' := (record_interaction "user_1" "b" "view" ∅ w).2 in
  trending_patterns (self w) !! "a" = Some (1 # 100)
  /\ trending_patterns (self w') !! "a" = None
  /\ trending_patterns (self w') !! "b" = Some (99 # 1000).
Proof. vm_compute. repeat split; reflexivity. Qed.



(** * Further properties *)

(** ** Exploration slots and injection *)

(** X1. The number of exploration slots never decreases when the target
    grows, and it is exactly 2 for every target below 30: the tenth of the
    target only counts from 30 on. *)
Theorem exploration_slots_floor_two (t1 t2 : Z) :
  ((t1 <= t2)%Z -> (exploration_slots t1 <= exploration_slots t2)%Z)
  /\ (exploration_slots t1 = 2%Z <-> (t1 < 30)%Z).
Proof.
  unfold exploration_slots. rewrite !py_int_tenth. split.
  - intros Hle. pose proof (Z.quot_le_mono t1 t2 10 ltac:(lia) Hle). lia.
  - Z.to_euclidean_division_equations. lia.
Qed.

Lemma inject_loop_provenance (exploration_prompts : list Prompt) (target_count : Z)
    (feed feed' : list Prompt) (w w' : World) :
  inject_loop exploration_prompts target_count feed w = (Ok feed', w') ->
  forall i x, feed' !! i = Some x -> feed !! i = Some x \/ x ∈ exploration_prompts.
Proof.
  revert feed w. induction exploration_prompts as [|p rest IH]; intros feed w; cbn [inject_loop].
  - intros [= <- <-] i x Hi. by left.
  - destruct (target_count <=? Z.of_nat (length feed))%Z.
    + unfold randint. destruct (target_count - 1 <? 0)%Z; run_py; [discriminate|].
      generalize (0 + dice w (dice_rolls w) `mod` (target_count - 1 - 0 + 1))%Z. intros j.
      destruct (py_setitem feed j p) as [feed1|e] eqn:Hset; [|discriminate].
      intros Hrun i x Hi. destruct (IH _ _ Hrun i x Hi) as [H1|H1]; [|right; by right].
      revert Hset. unfold py_setitem.
      repeat (destruct (_ && _)); try discriminate; intros [= <-];
        (apply list_lookup_insert_Some in H1 as [(_ & Hx & _)|[_ H1]];
         [right; rewrite <- Hx; by left | by left]).
    + intros Hrun i x Hi. destruct (IH _ _ Hrun i x Hi) as [H1|H1]; [|right; by right].
      apply lookup_app_Some in H1 as [H1|[_ H1]]; [by left|].
      right. apply list_lookup_singleton_Some in H1 as [_ <-]. by left.
Qed.

(** X2. For a target of at least 1 and any exploration prompts,
    the injection returns without an error and leaves [self] as it was; the
    list it returns has as many items as the feed and the exploration prompts
    together, capped at the target, and each position holds the item the feed
    had there or one of the exploration prompts. *)
Theorem injection_length_and_provenance (exploration_prompts feed : list Prompt)
    (target_count : Z) (w : World) :
  (1 <= target_count)%Z ->
  exists out w',
    inject_exploration_with exploration_prompts feed target_count w = (Ok out, w')
    /\ self w' = self w
    /\ Z.of_nat (length out)
       = Z.min target_count (Z.of_nat (length feed + length exploration_prompts))
    /\ (forall i x, out !! i = Some x -> feed !! i = Some x \/ x ∈ exploration_prompts).
Proof.
  intros Ht.
  destruct (inject_loop_returns exploration_prompts target_count feed w Ht)
    as (feed' & w' & Hrun & Hself & Hlen).
  exists (py_slice_to feed' target_count), w'.
  unfold inject_exploration_with. run_py. rewrite Hrun.
  split; [reflexivity|]. split; [exact Hself|]. split.
  - rewrite py_slice_to_length by lia. lia.
  - intros i x Hi. apply (inject_loop_provenance _ _ _ _ _ _ Hrun i x).
    revert Hi. unfold py_slice_to. assert ((0 <=? target_count)%Z = true) as -> by lia.
    intros Hi. by apply lookup_take_Some in Hi as [Hi _].
Qed.

(** X3. While the feed and the exploration prompts together do not exceed the
    target, the injection appends the prompts in their order, draws no random
    number and drops nothing. *)
Theorem injection_appends_below_target (exploration_prompts feed : list Prompt)
    (target_count : Z) (w : World) :
  (Z.of_nat (length feed + length exploration_prompts) <= target_count)%Z ->
  inject_exploration_with exploration_prompts feed target_count w
  = (Ok (feed ++ exploration_prompts), w).
Proof.
  intros Hlen.
  assert (Hloop : inject_loop exploration_prompts target_count feed w
                  = (Ok (feed ++ exploration_prompts), w)).
  { revert feed Hlen. induction exploration_prompts as [|p rest IH]; intros feed Hlen;
      cbn [inject_loop].
    - by rewrite app_nil_r.
    - cbn [length] in Hlen.
      assert ((target_count <=? Z.of_nat (length feed))%Z = false) as -> by lia.
      rewrite IH by (rewrite length_app; cbn [length]; lia).
      by rewrite <- app_assoc. }
  unfold inject_exploration_with. run_py. rewrite Hloop.
  unfold py_slice_to. assert ((0 <=? target_count)%Z = true) as -> by lia.
  rewrite take_ge; [reflexivity|]. rewrite length_app. lia.
Qed.

(** X4. For a target of 0 or less, one exploration prompt is enough for the
    injection to raise [ValueError]: the feed is never shorter than such a
    target, and the position is drawn from an empty range. *)
Theorem injection_raises_without_target (p : Prompt) (rest feed : list Prompt)
    (target_count : Z) (w : World) :
  (target_count <= 0)%Z ->
  inject_exploration_with (p :: rest) feed target_count w = (Raise ValueError, w).
Proof.
  intros Ht. unfold inject_exploration_with. cbn [inject_loop].
  assert ((target_count <=? Z.of_nat (length feed))%Z = true) as ->
    by (apply Z.leb_le; lia).
  unfold randint. run_py.
  assert ((target_count - 1 <? 0)%Z = true) as -> by lia. reflexivity.
Qed.

(** ** Viral potential *)

Lemma inject_Z_pos (b : Z) : (0 < b)%Z -> 0 < inject_Z b.
Proof. unfold Qlt. simpl. lia. Qed.

Lemma inject_Z_nonneg (a : Z) : (0 <= a)%Z -> 0 <= inject_Z a.
Proof. unfold Qle. simpl. lia. Qed.

Lemma ratio_bounds (a b : Z) :
  (0 <= a <= b)%Z -> (1 <= b)%Z -> 0 <= inject_Z a / inject_Z b /\ inject_Z a / inject_Z b <= 1.
Proof.
  intros [Ha Hab] Hb.
  assert (0 < inject_Z b) as Hpos by (apply inject_Z_pos; lia).
  split.
  - apply Qle_shift_div_l; [exact Hpos|]. rewrite Qmult_0_l. by apply inject_Z_nonneg.
  - apply Qle_shift_div_r; [exact Hpos|]. rewrite Qmult_1_l. by rewrite <- Zle_Qle.
Qed.

Lemma py_min_one_bounds (x : Q) : 0 <= x -> 0 <= py_min x 1 /\ py_min x 1 <= 1.
Proof.
  intros Hx. unfold py_min. destruct (Qltb 1 x) eqn:E.
  - split; [discriminate | apply Qle_refl].
  - apply Qltb_ge in E. split; assumption.
Qed.

Lemma py_min_saturated (x : Q) : 1 <= x -> py_min x 1 == 1.
Proof.
  intros Hx. unfold py_min. destruct (Qltb 1 x) eqn:E; [reflexivity|].
  apply Qltb_ge in E. by apply Qle_antisym.
Qed.

Lemma viral_potential_at_bounds (now : Q) (prompt : Prompt) :
  (0 <= default 0 (remix_count prompt))%Z ->
  (0 <= default 0 (unique_users prompt)
   <= Z.max (default 0 (usage_count prompt)) 1)%Z ->
  0 <= default 0 (trending_score prompt) <= 1 ->
  8 # 100 <= viral_potential_at now prompt /\ viral_potential_at now prompt <= 1.
Proof.
  intros Hr Hu [Ht0 Ht1].
  unfold viral_potential_at, viral_score. cbv zeta.
  set (d := Z.max (default 0%Z (usage_count prompt)) 1) in *.
  destruct (ratio_bounds _ d Hu ltac:(lia)) as [Hu0 Hu1].
  assert (0 <= inject_Z (default 0%Z (remix_count prompt)) / inject_Z d * 10) as Hrr.
  { apply Qmult_le_0_compat; [|discriminate].
    apply Qle_shift_div_l; [apply inject_Z_pos; lia|].
    rewrite Qmult_0_l. by apply inject_Z_nonneg. }
  destruct (py_min_one_bounds _ Hrr) as [Hm0 Hm1].
  set (m := py_min _ 1) in *.
  set (u := inject_Z (default 0%Z (unique_users prompt)) / inject_Z d) in *.
  set (t := default 0 (trending_score prompt)) in *.
  clearbody m u t. destruct (Qltb _ 24); split; lra.
Qed.

(** X5. For a prompt whose counts are not negative, whose [unique_users] does
    not exceed [max(usage_count, 1)] and whose [trending_score] is within
    [0, 1], the viral potential is returned and lies between 0.08 and 1,
    whatever the remix rate and the age. *)
Theorem viral_potential_bounds (prompt : Prompt) (w : World) :
  (0 <= default 0 (remix_count prompt))%Z ->
  (0 <= default 0 (unique_users prompt)
   <= Z.max (default 0 (usage_count prompt)) 1)%Z ->
  0 <= default 0 (trending_score prompt) <= 1 ->
  exists v,
    (_calculate_viral_potential prompt w).1 = Ok v /\ 8 # 100 <= v /\ v <= 1.
Proof.
  intros Hr Hu Ht. rewrite viral_potential_value. eexists. split; [reflexivity|].
  by apply viral_potential_at_bounds.
Qed.

Lemma age_hours_mono (now1 now2 : Q) (prompt : Prompt) :
  now1 <= now2 -> age_hours_at now1 prompt <= age_hours_at now2 prompt.
Proof. intros H. unfold age_hours_at, Qdiv. apply Qmult_le_compat_r; [lra | discriminate]. Qed.

(** X6. The later the clock reads, the lower (or equal) the viral potential
    of a prompt, and ageing costs at most 0.02: only the freshness bonus
    depends on the time, 0.1 before 24 hours of age and 0.08 from then on. *)
Theorem viral_potential_fades (prompt : Prompt) (w1 w2 : World) :
  clock w1 (clock_reads w1) <= clock w2 (clock_reads w2) ->
  exists v1 v2,
    (_calculate_viral_potential prompt w1).1 = Ok v1
    /\ (_calculate_viral_potential prompt w2).1 = Ok v2
    /\ v2 <= v1 /\ v1 - v2 <= 2 # 100.
Proof.
  intros Hle. rewrite !viral_potential_value. do 2 eexists.
  split; [reflexivity|]. split; [reflexivity|].
  unfold viral_potential_at, viral_score. cbv zeta.
  pose proof (age_hours_mono _ _ prompt Hle) as Hage.
  destruct (Qltb (age_hours_at (clock w1 (clock_reads w1)) prompt) 24) eqn:E1;
    destruct (Qltb (age_hours_at (clock w2 (clock_reads w2)) prompt) 24) eqn:E2;
    try (split; lra).
  apply Qltb_ge in E1. apply Qltb_lt in E2. lra.
Qed.

(** X7. From a remix rate of one tenth on, the remix count no longer changes
    the viral potential: two prompts that differ in [remix_count] only, both
    with at least one remix per ten uses, get equal viral potentials at the
    same clock reading. *)
Theorem viral_potential_saturates (creator : string) (created : Q) (tpl : option string)
    (eff : option Q) (usage remix1 remix2 : Z) (users : option Z) (trend : option Q)
    (w : World) :
  (1 <= usage)%Z -> (usage <= 10 * remix1)%Z -> (usage <= 10 * remix2)%Z ->
  exists v1 v2,
    (_calculate_viral_potential
       (mkPrompt creator created tpl eff (Some usage) (Some remix1) users trend) w).1 = Ok v1
    /\ (_calculate_viral_potential
          (mkPrompt creator created tpl eff (Some usage) (Some remix2) users trend) w).1 = Ok v2
    /\ v1 == v2.
Proof.
  intros Hu H1 H2. rewrite !viral_potential_value. do 2 eexists.
  split; [reflexivity|]. split; [reflexivity|].
  unfold viral_potential_at, viral_score, age_hours_at. cbn.
  assert (Hsat : forall r, (usage <= 10 * r)%Z ->
            py_min (inject_Z r / inject_Z (Z.max usage 1) * 10) 1 == 1).
  { intros r Hr. apply py_min_saturated.
    assert (0 < inject_Z (Z.max usage 1)) as Hpos by (apply inject_Z_pos; lia).
    setoid_replace (inject_Z r / inject_Z (Z.max usage 1) * 10)
      with ((inject_Z r * 10) / inject_Z (Z.max usage 1)) using relation Qeq
      by (field; lra).
    apply Qle_shift_div_l; [exact Hpos|]. rewrite Qmult_1_l.
    change 10 with (inject_Z 10). rewrite <- inject_Z_mult, <- Zle_Qle. lia. }
  rewrite (Hsat remix1 H1), (Hsat remix2 H2). reflexivity.
Qed.

(** ** Categories *)

Lemma ascii_lower_idem (c : Ascii.ascii) : ascii_lower (ascii_lower c) = ascii_lower c.
Proof. destruct c as [[] [] [] [] [] [] [] []]; reflexivity. Qed.

Lemma str_lower_idem (s : string) : str_lower (str_lower s) = str_lower s.
Proof. induction s as [|c s IH]; simpl; [done|]. by rewrite ascii_lower_idem, IH. Qed.

(** X8. The category of a prompt is always one of business, technical,
    creative, analytical and general; it is general when the template is
    absent or empty; and it does not depend on the letter case of the
    template: a template and its lower-case form get the same category. *)
Theorem category_labels (creator : string) (created : Q) (tpl : option string)
    (eff : option Q) (usage remix users : option Z) (trend : option Q) :
  let category t :=
    _get_prompt_category (mkPrompt creator created t eff usage remix users trend) in
  category tpl ∈ ["business"; "technical"; "creative"; "analytical"; "general"]
  /\ category None = "general"
  /\ category (Some "") = "general"
  /\ category (str_lower <$> tpl) = category tpl.
Proof.
  cbv zeta. split; [|split; [reflexivity|split; [reflexivity|]]].
  - unfold _get_prompt_category.
    repeat (destruct (_ || _); [set_solver|]). set_solver.
  - unfold _get_prompt_category. destruct tpl as [s|]; cbn [fmap option_fmap option_map template default from_option id]; [|reflexivity].
    by rewrite str_lower_idem.
Qed.

(** ** Logs and trend map under [record_interaction] *)

Lemma alter_present (f : UserData -> UserData) (user_id : string)
    (ui : gmap string UserData) (d : UserData) :
  ui !! user_id = Some d -> alter f user_id ui = <[user_id := f d]> ui.
Proof.
  intros E. apply map_eq. intros u. destruct (decide (u = user_id)) as [->|Hne].
  - by rewrite lookup_alter_eq, lookup_insert_eq, E.
  - by rewrite lookup_alter_ne, lookup_insert_ne.
Qed.

Lemma alter_absent (f : UserData -> UserData) (user_id : string)
    (ui : gmap string UserData) (d : UserData) :
  alter f user_id (<[user_id := d]> ui) = <[user_id := f d]> ui.
Proof.
  apply map_eq. intros u. destruct (decide (u = user_id)) as [->|Hne].
  - by rewrite lookup_alter_eq, !lookup_insert_eq.
  - by rewrite lookup_alter_ne, !lookup_insert_ne.
Qed.

(** X9. What [record_interaction] writes to the per-user data, by kind, for
    the interaction [i] stamped with the clock reading of the call and the
    record [d] of the user (the empty record for a new user).  "view" returns
    and appends [i] to the user's views; "share" returns, appends to no log
    and only stores [d].  "use", "remix" and "skip" raise [AttributeError]
    once [i] is appended to the uses, remixes and skips: the log entry stays
    and the trend map is not updated. *)
Theorem interaction_is_logged (user_id prompt_id : string) (metadata : gmap string pyval)
    (w : World) :
  let ui := user_interactions (self w) in
  let d := default fresh_user_data (ui !! user_id) in
  let i kind := mkInteraction prompt_id (clock w (clock_reads w)) kind metadata in
  let run kind := record_interaction user_id prompt_id kind metadata w in
  let after kind := user_interactions (self (run kind).2) in
  ((run "view").1 = Ok tt /\ after "view" = <[user_id := append_views (i "view") d]> ui)
  /\ ((run "share").1 = Ok tt /\ after "share" = <[user_id := d]> ui)
  /\ ((run "use").1 = Raise AttributeError
      /\ after "use" = <[user_id := append_uses (i "use") d]> ui)
  /\ ((run "remix").1 = Raise AttributeError
      /\ after "remix" = <[user_id := append_remixes (i "remix") d]> ui)
  /\ ((run "skip").1 = Raise AttributeError
      /\ after "skip" = <[user_id := append_skips (i "skip") d]> ui)
  /\ (forall kind, kind ∈ affinity_kinds ->
        trending_patterns (self (run kind).2) = trending_patterns (self w)).
Proof.
  cbv zeta.
  split; [|split; [|split; [|split; [|split]]]];
    try (split;
         unfold record_interaction, read_user_data, update_user, call_undefined,
           _update_trending_patterns, _check_viral_threshold, _get_prompt_data,
           check_viral_threshold_on;
         run_py;
         (destruct (user_interactions (self w) !! user_id) as [d|] eqn:E; run_py;
          repeat (case_decide; try done; run_py);
          cbn [self user_interactions set_user_interactions set_trending_patterns
               default from_option id];
          rewrite ?(alter_present _ _ _ _ E), ?alter_absent; try reflexivity;
          symmetry; by apply insert_id)).
  intros kind Hk. by rewrite record_interaction_trending, decide_True.
Qed.

Lemma record_interaction_other_item (user_id prompt_id interaction_type q : string)
    (metadata : gmap string pyval) (w : World) :
  interaction_type ∉ affinity_kinds ->
  q <> prompt_id ->
  trending_patterns (self (record_interaction user_id prompt_id interaction_type metadata w).2) !! q
  = decayed (trending_patterns (self w) !! q).
Proof.
  intros Hk Hne. rewrite record_interaction_trending, decide_False by done.
  by rewrite update_trending_lookup, lookup_insert_ne.
Qed.

(** X10. An event for an item that is not tracked starts tracking it exactly
    when its kind is view or share.  After a kind the engine does not know,
    the item is still absent; after use, remix or skip it is absent too, the
    call having raised before the trend update. *)
Theorem tracking_starts_on_view_and_share (user_id prompt_id interaction_type : string)
    (metadata : gmap string pyval) (w : World) :
  trending_patterns (self w) !! prompt_id = None ->
  is_Some (trending_patterns
             (self (record_interaction user_id prompt_id interaction_type metadata w).2)
           !! prompt_id)
  <-> interaction_type ∈ ["view"; "share"].
Proof.
  intros Hnone. rewrite record_interaction_trending.
  rewrite !elem_of_cons, elem_of_nil.
  case_decide as Hk.
  - rewrite Hnone. apply is_affinity_kind in Hk.
    split; [intros [v Hv]; discriminate|].
    intros [->|[->|[]]]; destruct Hk as [Hk|[Hk|Hk]]; discriminate.
  - rewrite update_trending_lookup, lookup_insert_eq.
    unfold momentum, dd_float. rewrite Hnone. cbn [default from_option id].
    apply not_affinity_kind in Hk as (Hu & Hr & Hs).
    destruct (decide (interaction_type = "view")) as [->|Hv];
      [split; [intros _; tauto | intros _; by eexists]|].
    destruct (decide (interaction_type = "share")) as [->|Hsh];
      [split; [intros _; tauto | intros _; by eexists]|].
    rewrite event_weight_unknown
      by (unfold known_kinds; rewrite !not_elem_of_cons; repeat split; try done;
          apply not_elem_of_nil).
    split; [intros [v Hv']; discriminate | tauto].
Qed.

Lemma record_all_step (e : Event) (rest : list Event) (w : World) :
  returning e ->
  record_all (e :: rest) w
  = record_all rest
      (record_interaction (ev_user e) (ev_prompt e) (ev_kind e) (ev_metadata e) w).2.
Proof.
  intros Hk. cbn [record_all]. run_py.
  destruct (record_interaction_returns (ev_user e) (ev_prompt e) (ev_kind e)
              (ev_metadata e) w Hk) as [ui' ->].
  reflexivity.
Qed.

Lemma record_all_stop (e : Event) (rest : list Event) (w : World) :
  ~ returning e ->
  record_all (e :: rest) w
  = (Raise AttributeError,
     (record_interaction (ev_user e) (ev_prompt e) (ev_kind e) (ev_metadata e) w).2).
Proof.
  intros Hk. cbn [record_all]. run_py.
  destruct (record_interaction_raises (ev_user e) (ev_prompt e) (ev_kind e)
              (ev_metadata e) w) as [ui' ->]; [|reflexivity].
  unfold returning in Hk. by destruct (decide (ev_kind e ∈ affinity_kinds)).
Qed.

Lemma record_interaction_frame (user_id prompt_id interaction_type : string)
    (metadata : gmap string pyval) (w : World) :
  let w' := (record_interaction user_id prompt_id interaction_type metadata w).2 in
  recommendation_weights (self w') = recommendation_weights (self w)
  /\ viral_thresholds (self w') = viral_thresholds (self w)
  /\ emerging_creators (self w') = emerging_creators (self w)
  /\ clock w' = clock w /\ clock_reads w' = S (clock_reads w)
  /\ dice w' = dice w /\ dice_rolls w' = dice_rolls w.
Proof.
  cbv zeta. destruct (decide (interaction_type ∈ affinity_kinds)) as [Hk|Hk].
  - destruct (record_interaction_raises user_id prompt_id interaction_type metadata w Hk)
      as [ui' ->]. repeat split.
  - destruct (record_interaction_returns user_id prompt_id interaction_type metadata w Hk)
      as [ui' ->]. repeat split.
Qed.

Lemma decayed_is_Some (o : option Q) : is_Some (decayed o) -> is_Some o.
Proof. destruct o; [by eexists | intros [v Hv]; discriminate]. Qed.

Lemma record_all_config (events : list Event) (w : World) :
  let w' := (record_all events w).2 in
  recommendation_weights (self w') = recommendation_weights (self w)
  /\ viral_thresholds (self w') = viral_thresholds (self w)
  /\ emerging_creators (self w') = emerging_creators (self w)
  /\ dice_rolls w' = dice_rolls w.
Proof.
  cbv zeta. revert w. induction events as [|e rest IH]; intros w; [done|].
  destruct (record_interaction_frame (ev_user e) (ev_prompt e) (ev_kind e)
              (ev_metadata e) w) as (H1 & H2 & H3 & _ & _ & _ & H7).
  destruct (decide (returning e)) as [Hk|Hk].
  - rewrite record_all_step by done.
    destruct (IH (record_interaction (ev_user e) (ev_prompt e) (ev_kind e)
                    (ev_metadata e) w).2) as (I1 & I2 & I3 & I4).
    rewrite I1, I2, I3, I4. done.
  - rewrite record_all_stop by done. done.
Qed.

Lemma record_all_tracked (events : list Event) (w : World) (q : string) :
  is_Some (trending_patterns (self (record_all events w).2) !! q) ->
  is_Some (trending_patterns (self w) !! q) \/ q ∈ ev_prompt <$> events.
Proof.
  revert w. induction events as [|e rest IH]; intros w; [by left|].
  assert (Hone : is_Some (trending_patterns
                   (self (record_interaction (ev_user e) (ev_prompt e) (ev_kind e)
                            (ev_metadata e) w).2) !! q) ->
                 is_Some (trending_patterns (self w) !! q) \/ q = ev_prompt e).
  { rewrite record_interaction_trending. case_decide; [by left|].
    rewrite update_trending_lookup. intros H1%decayed_is_Some.
    destruct (decide (q = ev_prompt e)) as [->|Hq]; [by right|].
    left. by rewrite lookup_insert_ne in H1. }
  rewrite fmap_cons, elem_of_cons.
  destruct (decide (returning e)) as [Hk|Hk].
  - rewrite record_all_step by done. intros H. destruct (IH _ H) as [H1|H1]; [|tauto].
    destruct (Hone H1); tauto.
  - rewrite record_all_stop by done. cbn [snd]. intros H. destruct (Hone H); tauto.
Qed.

Lemma record_all_floor (events : list Event) (w : World) :
  Forall returning events -> events <> [] ->
  forall q v, trending_patterns (self (record_all events w).2) !! q = Some v -> 1 # 100 <= v.
Proof.
  revert w. induction events as [|e rest IH]; intros w Hall Hne; [done|].
  apply Forall_cons in Hall as [He Hall].
  rewrite record_all_step by done. destruct rest as [|e' rest'].
  - cbn. intros q v. rewrite record_interaction_trending, decide_False by done.
    rewrite update_trending_lookup. apply decayed_ge.
  - apply IH; done.
Qed.

Lemma record_all_returns (events : list Event) (w : World) :
  Forall returning events ->
  (record_all events w).1 = Ok tt
  /\ clock_reads (record_all events w).2 = (length events + clock_reads w)%nat.
Proof.
  revert w. induction events as [|e rest IH]; intros w Hall; [done|].
  apply Forall_cons in Hall as [He Hall].
  rewrite record_all_step by done.
  destruct (IH (record_interaction (ev_user e) (ev_prompt e) (ev_kind e)
                  (ev_metadata e) w).2 Hall) as [I1 I2].
  destruct (record_interaction_frame (ev_user e) (ev_prompt e) (ev_kind e)
              (ev_metadata e) w) as (_ & _ & _ & _ & H5 & _).
  rewrite I1, I2, H5. cbn [length]. split; [done | lia].
Qed.

Lemma record_all_fails (events : list Event) (w : World) :
  ~ Forall returning events -> (record_all events w).1 = Raise AttributeError.
Proof.
  revert w. induction events as [|e rest IH]; intros w Hall.
  - exfalso. apply Hall. constructor.
  - destruct (decide (returning e)) as [Hk|Hk].
    + rewrite record_all_step by done. apply IH. intros Hrest. apply Hall. by constructor.
    + by rewrite record_all_stop.
Qed.

(** X11. A run of recorded events leaves the weights, the viral thresholds
    and the emerging creators of the engine as they were and draws no random
    number; the items tracked afterwards were tracked before or are items of
    the events.  When no event is of kind use, remix or skip, the run returns
    normally with one clock reading per event and, after at least one event,
    every stored momentum at least 0.01; otherwise it raises
    [AttributeError]. *)
Theorem recording_frame (events : list Event) (w : World) :
  let r := record_all events w in
  recommendation_weights (self r.2) = recommendation_weights (self w)
  /\ viral_thresholds (self r.2) = viral_thresholds (self w)
  /\ emerging_creators (self r.2) = emerging_creators (self w)
  /\ dice_rolls r.2 = dice_rolls w
  /\ (forall q, is_Some (trending_patterns (self r.2) !! q) ->
        is_Some (trending_patterns (self w) !! q) \/ q ∈ ev_prompt <$> events)
  /\ (Forall returning events ->
        r.1 = Ok tt
        /\ clock_reads r.2 = (length events + clock_reads w)%nat
        /\ (events <> [] ->
            forall q v, trending_patterns (self r.2) !! q = Some v -> 1 # 100 <= v))
  /\ (~ Forall returning events -> r.1 = Raise AttributeError).
Proof.
  cbv zeta. destruct (record_all_config events w) as (H1 & H2 & H3 & H4).
  repeat split; try done.
  - intros q. apply record_all_tracked.
  - by apply record_all_returns.
  - by apply record_all_returns.
  - intros Hne q v. by apply record_all_floor.
  - apply record_all_fails.
Qed.

Lemma decay_power_succ (n : nat) :
  (99 # 100) ^ Z.of_nat (S n) == (99 # 100) * (99 # 100) ^ Z.of_nat n.
Proof.
  rewrite Nat2Z.inj_succ, <- Z.add_1_l, Qpower_plus by discriminate. reflexivity.
Qed.

Lemma decay_power_bounds (n : nat) :
  0 < (99 # 100) ^ Z.of_nat n /\ (99 # 100) ^ Z.of_nat n <= 1.
Proof.
  split; [by apply Qpower_0_lt|].
  induction n as [|n IH]; [discriminate|].
  rewrite decay_power_succ.
  assert (0 < (99 # 100) ^ Z.of_nat n) by by apply Qpower_0_lt.
  nra.
Qed.

Lemma record_all_untracked (events : list Event) (w : World) (q : string) :
  q ∉ ev_prompt <$> events ->
  trending_patterns (self w) !! q = None ->
  trending_patterns (self (record_all events w).2) !! q = None.
Proof.
  intros Hq Hnone.
  destruct (trending_patterns (self (record_all events w).2) !! q) as [v|] eqn:E; [|done].
  destruct (record_all_tracked events w q) as [[v' Hv']|Hin]; [by eexists | congruence | done].
Qed.

(** X12. An item left alone decays geometrically: after a run of [n] events,
    none of them for the item and none of kind use, remix or skip, an item
    that had momentum [m] is either still tracked, with momentum
    [m * 0.99 ^ n] (at least 0.01 when [n > 0]), or evicted, and then
    [m * 0.99 ^ n] is below 0.01. *)
Theorem untouched_item_decays (events : list Event) (w : World) (q : string) (m : Q) :
  Forall returning events ->
  q ∉ ev_prompt <$> events ->
  trending_patterns (self w) !! q = Some m ->
  match trending_patterns (self (record_all events w).2) !! q with
  | Some v =>
      v == m * (99 # 100) ^ Z.of_nat (length events)
      /\ (events <> [] -> 1 # 100 <= v)
  | None => m * (99 # 100) ^ Z.of_nat (length events) < 1 # 100
  end.
Proof.
  revert w m. induction events as [|e rest IH]; intros w m Hall Hq Hm.
  - cbn. rewrite Hm. split; [|done]. change ((99 # 100) ^ Z.of_nat 0) with 1. ring.
  - rewrite fmap_cons in Hq. apply not_elem_of_cons in Hq as [Hne Hq].
    pose proof (record_all_floor (e :: rest) w Hall ltac:(done) q) as Hfloor.
    apply Forall_cons in Hall as [He Hall].
    rewrite record_all_step in Hfloor |- * by done.
    pose proof (record_interaction_other_item (ev_user e) (ev_prompt e) (ev_kind e) q
                  (ev_metadata e) w He Hne) as Hstep.
    rewrite Hm in Hstep. cbn [decayed mbind option_bind] in Hstep.
    pose proof (decay_power_bounds (length rest)) as [Hp0 Hp1].
    cbn [length].
    destruct (Qltb (m * (99 # 100)) (1 # 100)) eqn:El.
    + rewrite (record_all_untracked rest _ q Hq Hstep).
      apply Qltb_lt in El. rewrite decay_power_succ.
      set (p := (99 # 100) ^ Z.of_nat (length rest)) in *. clearbody p.
      destruct (Qlt_le_dec 0 (m * (99 # 100))); nra.
    + specialize (IH _ _ Hall Hq Hstep).
      destruct (trending_patterns (self (record_all rest _).2) !! q) as [v|] eqn:E.
      * destruct IH as [IH _]. split; [|intros _; by apply Hfloor].
        rewrite IH, decay_power_succ. ring.
      * rewrite decay_power_succ.
        setoid_replace (m * ((99 # 100) * (99 # 100) ^ Z.of_nat (length rest)))
          with (m * (99 # 100) * (99 # 100) ^ Z.of_nat (length rest)) using relation Qeq
          by ring.
        exact IH.
Qed.

(** ** What a failing [get_feed] leaves behind *)

Section GetFeedMore.

Context (np_exp : Q -> Q).


End GetFeedMore.

(** ** The further properties on concrete runs *)

Lemma injection_length_and_provenance_witness :
  exists out w',
    inject_exploration_with [other_prompt; zero_usage_prompt] [sample_prompt; sample_prompt] 2
      (fresh_world (stepping_clock 1)) = (Ok out, w')
    /\ self w' = init
    /\ Z.of_nat (length out) = 2%Z
    /\ (forall i x, out !! i = Some x ->
          [sample_prompt; sample_prompt] !! i = Some x
          \/ x ∈ [other_prompt; zero_usage_prompt]).
Proof.
  apply (injection_length_and_provenance [other_prompt; zero_usage_prompt]
           [sample_prompt; sample_prompt] 2 (fresh_world (stepping_clock 1))).
  lia.
Defined.

Lemma injection_appends_below_target_witness :
  inject_exploration_with [other_prompt] [sample_prompt] 20 (fresh_world (stepping_clock 1))
  = (Ok [sample_prompt; other_prompt], fresh_world (stepping_clock 1)).
Proof.
  apply (injection_appends_below_target [other_prompt] [sample_prompt] 20
           (fresh_world (stepping_clock 1))).
  simpl. lia.
Defined.

Lemma injection_raises_without_target_witness :
  inject_exploration_with [other_prompt] [] 0 (fresh_world (stepping_clock 1))
  = (Raise ValueError, fresh_world (stepping_clock 1)).
Proof.
  apply (injection_raises_without_target other_prompt [] [] 0 (fresh_world (stepping_clock 1))).
  lia.
Defined.

Lemma viral_potential_bounds_witness :
  exists v,
    (_calculate_viral_potential sample_prompt (fresh_world (stepping_clock 1))).1 = Ok v
    /\ 8 # 100 <= v /\ v <= 1.
Proof.
  apply (viral_potential_bounds sample_prompt (fresh_world (stepping_clock 1)));
    simpl; [lia | lia | split; discriminate].
Defined.

Lemma viral_potential_fades_witness :
  exists v1 v2,
    (_calculate_viral_potential sample_prompt (fresh_world (fun _ => 3600))).1 = Ok v1
    /\ (_calculate_viral_potential sample_prompt (fresh_world (fun _ => 90000))).1 = Ok v2
    /\ v2 <= v1 /\ v1 - v2 <= 2 # 100.
Proof.
  apply (viral_potential_fades sample_prompt (fresh_world (fun _ => 3600))
           (fresh_world (fun _ => 90000))).
  simpl. discriminate.
Defined.

Lemma viral_potential_saturates_witness :
  exists v1 v2,
    (_calculate_viral_potential
       (mkPrompt "creator_1" 0 None None (Some 100%Z) (Some 15%Z) None None)
       (fresh_world (stepping_clock 1))).1 = Ok v1
    /\ (_calculate_viral_potential
          (mkPrompt "creator_1" 0 None None (Some 100%Z) (Some 50%Z) None None)
          (fresh_world (stepping_clock 1))).1 = Ok v2
    /\ v1 == v2.
Proof.
  apply (viral_potential_saturates "creator_1" 0 None None 100 15 50 None None
           (fresh_world (stepping_clock 1))); lia.
Defined.

Lemma tracking_starts_on_view_and_share_witness :
  is_Some (trending_patterns
             (self (record_interaction "user_1" "a" "use" ∅
                      (fresh_world (stepping_clock 1))).2) !! "a")
  <-> "use" ∈ ["view"; "share"].
Proof.
  apply (tracking_starts_on_view_and_share "user_1" "a" "use" ∅
           (fresh_world (stepping_clock 1))).
  reflexivity.
Defined.

Lemma untouched_item_decays_witness :
  match trending_patterns
          (self (record_all sample_events (world_after_share 1)).2) !! "a" with
  | Some v => v == (1485 # 1000) * (99 # 100) ^ 2 /\ (sample_events <> [] -> 1 # 100 <= v)
  | None => (1485 # 1000) * (99 # 100) ^ 2 < 1 # 100
  end.
Proof.
  apply (untouched_item_decays sample_events (world_after_share 1) "a" (1485 # 1000)).
  - unfold sample_events, returning. repeat (apply Forall_cons; split);
      [by apply not_affinity_kind | by apply not_affinity_kind | apply Forall_nil_2].
  - unfold sample_events. rewrite !fmap_cons, fmap_nil, !not_elem_of_cons.
    repeat split; try done. apply not_elem_of_nil.
  - vm_compute. reflexivity.
Defined.
